(** * snapshot_queries.query: the Query record and its text report

    A shallow embedding of [src/snapshot_queries/query.py] and the
    properties of its specification.

    Strings.  A Python [str] is modelled by [string], one [ascii] per code
    point, so the model covers the texts whose code points are below 256
    (Latin-1).  The built-in string operations the module calls ([strip],
    [rstrip], [lower], [repr], slicing, [join], [str] of an [int]) are written
    out below with CPython's behaviour on that range. *)

From Stdlib Require Import String Ascii List ZArith NArith Bool Lia.
From Stdlib Require Import DecimalString.
Import ListNotations.

Local Open Scope string_scope.

(** ** Python's built-in string operations *)

Module Py.

Local Open Scope N_scope.

Definition ord (c : ascii) : N := N_of_ascii c.
Definition chr (n : N) : ascii := ascii_of_N n.

(** Characters the source writes as escapes. *)
Definition TAB : ascii := "009"%char.
Definition LF : ascii := "010"%char.
Definition CR : ascii := "013"%char.
Definition ESC : ascii := "027"%char.
Definition SQUOTE : ascii := "'"%char.
Definition DQUOTE : ascii := "034"%char.
Definition BACKSLASH : ascii := "\"%char.

(** [str.isspace] for one character: the code points below 256 with the
    Unicode White_Space property or bidirectional class WS, B or S. *)
Definition isspace (c : ascii) : bool :=
  let n := ord c in
  ((9 <=? n) && (n <=? 13)) || ((28 <=? n) && (n <=? 32))
  || (n =? 133) || (n =? 160).

(** [str.isprintable] for one character, as [repr] uses it. *)
Definition isprintable (c : ascii) : bool :=
  let n := ord c in
  ((32 <=? n) && (n <=? 126)) || ((161 <=? n) && negb (n =? 173)).

(** [s.lstrip(chars)], [s.rstrip(chars)] and [s.strip(chars)], the set of
    characters given by its membership test. *)
Fixpoint lstrip_by (p : ascii -> bool) (s : string) : string :=
  match s with
  | EmptyString => EmptyString
  | String c s' => if p c then lstrip_by p s' else s
  end.

Fixpoint rstrip_by (p : ascii -> bool) (s : string) : string :=
  match s with
  | EmptyString => EmptyString
  | String c s' =>
      match rstrip_by p s' with
      | EmptyString => if p c then EmptyString else String c EmptyString
      | r => String c r
      end
  end.

Definition strip_by (p : ascii -> bool) (s : string) : string :=
  rstrip_by p (lstrip_by p s).

(** [s.strip()] and [s.rstrip()]: whitespace. *)
Definition strip (s : string) : string := strip_by isspace s.
Definition rstrip (s : string) : string := rstrip_by isspace s.

(** [s.strip(chars)] for a string of characters. *)
Fixpoint mem (c : ascii) (chars : string) : bool :=
  match chars with
  | EmptyString => false
  | String d chars' => Ascii.eqb c d || mem c chars'
  end.

Definition strip_chars (chars s : string) : string :=
  strip_by (fun c => mem c chars) s.

(** [s[:n]]: the slice never fails, a short [s] is returned whole. *)
Fixpoint slice_to (n : nat) (s : string) : string :=
  match n, s with
  | O, _ => EmptyString
  | _, EmptyString => EmptyString
  | S n', String c s' => String c (slice_to n' s')
  end.

(** [s.lower()]: ASCII and Latin-1 capital letters move 32 up. *)
Definition lower_char (c : ascii) : ascii :=
  let n := ord c in
  if ((65 <=? n) && (n <=? 90))
     || ((192 <=? n) && (n <=? 222) && negb (n =? 215))
  then chr (n + 32) else c.

Fixpoint lower (s : string) : string :=
  match s with
  | EmptyString => EmptyString
  | String c s' => String (lower_char c) (lower s')
  end.

(** [sep.join(parts)]. *)
Definition join (sep : string) (parts : list string) : string :=
  String.concat sep parts.

(** [str(n)] for an [int]. *)
Definition str_int (n : Z) : string := NilZero.string_of_int (Z.to_int n).

(** [repr(s)] for a [str]. *)
Definition hex_digit (n : N) : ascii :=
  if n <? 10 then chr (48 + n) else chr (87 + n).

Definition hex_escape (c : ascii) : string :=
  String BACKSLASH
    (String "x" (String (hex_digit (ord c / 16))
                   (String (hex_digit (ord c mod 16)) EmptyString))).

Definition repr_char (quote c : ascii) : string :=
  if Ascii.eqb c quote || Ascii.eqb c BACKSLASH
  then String BACKSLASH (String c EmptyString)
  else if Ascii.eqb c TAB then String BACKSLASH "t"
  else if Ascii.eqb c LF then String BACKSLASH "n"
  else if Ascii.eqb c CR then String BACKSLASH "r"
  else if isprintable c then String c EmptyString
  else hex_escape c.

Fixpoint repr_body (quote : ascii) (s : string) : string :=
  match s with
  | EmptyString => EmptyString
  | String c s' => repr_char quote c ++ repr_body quote s'
  end.

(** The delimiter is the apostrophe, unless the text has an apostrophe
    and no double quote. *)
Definition repr_quote (s : string) : ascii :=
  if mem SQUOTE s && negb (mem DQUOTE s) then DQUOTE else SQUOTE.

Definition repr_str (s : string) : string :=
  let quote := repr_quote s in
  String quote (repr_body quote s ++ String quote EmptyString).

(** Every character, for checks by enumeration. *)
Definition all_chars : list ascii := map ascii_of_nat (seq 0 256).

End Py.

(** ** Collaborators

    The record and its report call three kinds of code that this file takes
    as interfaces: the frames of the captured call stack, the duration value,
    and the third-party highlighter and SQL pretty-printer. *)

(** Modelled from the spec: [snapshot_queries/stacktrace.py] ([StacktraceLine],
    [StackTrace]) is not among the sources.  A frame exposes a [code] string
    and a [location()] string; the null frame has both empty; a stack trace is
    an ordered sequence of frames, outermost first, with a text rendering. *)
Class Stacktrace := {
  StacktraceLine : Type;
  line_code : StacktraceLine -> string;
  line_location : StacktraceLine -> string;
  null : StacktraceLine;
  null_code : line_code null = "";
  null_location : line_location null = "";
  str_StackTrace : list StacktraceLine -> string
}.

Definition StackTrace `{Stacktrace} : Type := list StacktraceLine.

(** Modelled from the spec: [snapshot_queries/timedelta.py] ([TimeDelta]) is
    not among the sources.  The value is opaque, with a human-friendly
    rendering and a debug representation. *)
Class Timedelta := {
  TimeDelta : Type;
  humanize : TimeDelta -> string;
  repr_TimeDelta : TimeDelta -> string
}.

(** The grammars and the formatter of [pygments] that the module names. *)
Inductive Lexer : Type := SqlLexer | PostgresLexer | Python3Lexer.
Inductive Formatter : Type := TerminalFormatter.

(** Third-party code: [pygments.highlight], [sqlparse.format] with its
    [reindent] option, and the values of the driver's parameter tuple. *)
Class External := {
  PyObject : Type;
  highlight : string -> Lexer -> Formatter -> string;
  sqlparse_format : string -> bool -> string
}.

(** ** Exceptions *)

Inductive exn : Type := IndexError.

Inductive result (A : Type) : Type :=
| Ok (a : A)
| Raise (e : exn).
Arguments Ok {A} a.
Arguments Raise {A} e.

(** [l[i]] on a sequence, a negative index counting from the end. *)
Definition getitem {A : Type} (l : list A) (i : Z) : result A :=
  let len := Z.of_nat (length l) in
  let j := if (i <? 0)%Z then (i + len)%Z else i in
  if ((j <? 0) || (len <=? j))%Z then Raise IndexError
  else match nth_error l (Z.to_nat j) with
       | Some a => Ok a
       | None => Raise IndexError
       end.

(** Truth value of a sequence. *)
Definition truthy {A : Type} (l : list A) : bool :=
  match l with [] => false | _ :: _ => true end.

(** ** Display options *)

(** The resolved keyword arguments of [display_string]. *)
Module Flags.
Record t : Type := mk {
  code : bool;
  duration : bool;
  idx : bool;
  location : bool;
  stacktrace : bool;
  sql : bool;
  colored : bool;
  formatted : bool
}.
End Flags.

(** Keyword arguments as a call passes them: [None] for one left out. *)
Module Kwargs.
Record t : Type := mk {
  code : option bool;
  duration : option bool;
  idx : option bool;
  location : option bool;
  stacktrace : option bool;
  sql : option bool;
  colored : option bool;
  formatted : option bool
}.

(** A call with no keyword argument. *)
Definition none : t := mk None None None None None None None None.

(** A call that passes every flag. *)
Definition pass (o : Flags.t) : t :=
  mk (Some (Flags.code o)) (Some (Flags.duration o)) (Some (Flags.idx o))
     (Some (Flags.location o)) (Some (Flags.stacktrace o))
     (Some (Flags.sql o)) (Some (Flags.colored o))
     (Some (Flags.formatted o)).

Definition arg (default : bool) (given : option bool) : bool :=
  match given with Some b => b | None => default end.

(** The defaults of the signature of [display_string]. *)
Definition resolve (kw : t) : Flags.t :=
  Flags.mk (arg true (code kw)) (arg true (duration kw))
           (arg false (idx kw)) (arg true (location kw))
           (arg false (stacktrace kw)) (arg true (sql kw))
           (arg true (colored kw)) (arg true (formatted kw)).
End Kwargs.

(** ** The Query record and its methods *)

Section Model.

Context `{ST : Stacktrace} `{TD : Timedelta} `{EX : External}.

Record Query : Type := {
  code : string;
  db : string;
  duration : TimeDelta;
  idx : Z;
  is_select : bool;
  location : string;
  params : string;
  raw_params : list PyObject;
  sql : string;
  sql_parameterized : string;
  stacktrace : StackTrace;
  start_time : Z;
  stop_time : Z;
  db_type : string
}.

(** [Query.create]: the class method that derives [code] and [location]
    from the last frame.  The only operation that can raise is the index
    [stacktrace[-1]]. *)
Definition create (db : string) (duration : TimeDelta) (idx : Z)
    (is_select : bool) (params : string) (raw_params : list PyObject)
    (sql sql_parameterized : string) (stacktrace : StackTrace)
    (start_time stop_time : Z) (db_type : string) : result Query :=
  match (if truthy stacktrace then getitem stacktrace (-1)
         else Ok null) with
  | Raise e => Raise e
  | Ok last_executed_line =>
      Ok {| code := line_code last_executed_line;
            db := db;
            duration := duration;
            idx := idx;
            is_select := is_select;
            location := line_location last_executed_line;
            params := params;
            raw_params := raw_params;
            sql := sql;
            sql_parameterized := sql_parameterized;
            stacktrace := stacktrace;
            start_time := start_time;
            stop_time := stop_time;
            db_type := db_type |}
  end.

(** *** Methods

    The class is not frozen, so a method could assign to an attribute of
    [self].  A method is a function from the record it is called on to its
    result and the record it leaves. *)
Definition Method (A : Type) : Type := Query -> A * Query.

Definition ret {A : Type} (a : A) : Method A := fun self => (a, self).

Definition bind {A B : Type} (m : Method A) (k : A -> Method B)
  : Method B :=
  fun self => let (a, self') := m self in k a self'.

(** [self.attr] *)
Definition getattr {A : Type} (attr : Query -> A) : Method A :=
  fun self => (attr self, self).

(** [self.attr = v], by the record update it makes. *)
Definition setattr (update : Query -> Query) : Method unit :=
  fun self => (tt, update self).

Definition returned {A : Type} (m : Method A) (self : Query) : A :=
  fst (m self).

Definition self_after {A : Type} (m : Method A) (self : Query) : Query :=
  snd (m self).

Notation "x <- m ;; k" := (bind m (fun x => k))
  (at level 61, m at next level, right associativity).

(** [attributes.append(x)] on the local list. *)
Definition append (attributes : list string) (x : string) : list string :=
  attributes ++ [x].

(** [Query._enhanced_sql], lines 154 to 158: the grammar. *)
Definition _enhanced_sql_lexer : Method Lexer :=
  let lexer := SqlLexer in
  t <- getattr db_type ;;
  ret (if String.eqb (Py.lower t) "postgresql" then PostgresLexer
       else lexer).

(** [Query._enhanced_sql]. *)
Definition _enhanced_sql (formatted colored : bool) : Method string :=
  lexer <- _enhanced_sql_lexer ;;
  sql0 <- getattr sql ;;
  sql1 <- (if formatted
           then raw <- getattr sql ;; ret (sqlparse_format raw true)
           else ret sql0) ;;
  ret (if colored then highlight sql1 lexer TerminalFormatter else sql1).

(** [Query.display_string], lines 122 to 148: the list [attributes] as
    the appends leave it. *)
Definition display_attributes (o : Flags.t) : Method (list string) :=
  let attributes := [] in
  attributes <- (if Flags.idx o
                 then i <- getattr idx ;;
                      ret (append attributes ("index: " ++ Py.str_int i))
                 else ret attributes) ;;
  attributes <- (if Flags.duration o
                 then d <- getattr duration ;;
                      ret (append attributes (humanize d))
                 else ret attributes) ;;
  attributes <- (if Flags.location o
                 then l <- getattr location ;;
                      ret (append attributes l)
                 else ret attributes) ;;
  attributes <- (if Flags.code o
                 then c <- getattr code ;;
                      ret (append attributes
                             (if Flags.colored o && Flags.formatted o
                              then highlight c Python3Lexer
                                     TerminalFormatter
                              else c))
                 else ret attributes) ;;
  attributes <- (if Flags.stacktrace o
                 then s <- getattr stacktrace ;;
                      ret (append attributes (str_StackTrace s))
                 else ret attributes) ;;
  attributes <- (if Flags.sql o
                 then s <- (if Flags.colored o
                            then _enhanced_sql (Flags.formatted o)
                                   (Flags.colored o)
                            else getattr sql) ;;
                      ret (append attributes s)
                 else ret attributes) ;;
  ret attributes.

(** The separator of the join: two newline characters. *)
Definition blank_line : string :=
  String Py.LF (String Py.LF EmptyString).

(** [Query.display_string], line 150: every section stripped. *)
Definition display_sections (o : Flags.t) : Method (list string) :=
  attributes <- display_attributes o ;;
  ret (map Py.strip attributes).

(** [Query.display_string]. *)
Definition display_string (kw : Kwargs.t) : Method string :=
  attributes <- display_sections (Kwargs.resolve kw) ;;
  ret (Py.rstrip (Py.join blank_line attributes)).

(** [Query.__str__]. *)
Definition __str__ : Method string := display_string Kwargs.none.

(** [Query.__repr__]. *)
Definition truncated_sql : Method string :=
  s <- getattr sql ;;
  ret (Py.strip_chars "'" (Py.slice_to 30 (Py.repr_str s))).

Definition __repr__ : Method string :=
  truncated_sql <- truncated_sql ;;
  i <- getattr idx ;;
  c <- getattr code ;;
  d <- getattr duration ;;
  l <- getattr location ;;
  ret ("Query("
       ++ "idx=" ++ Py.str_int i ++ ", "
       ++ "code='" ++ c ++ "', "
       ++ "duration=" ++ repr_TimeDelta d ++ ", "
       ++ "location='" ++ l ++ "', "
       ++ "sql='" ++ truncated_sql ++ "...')").

End Model.

(** ** The report in the words of the specification

    The sections in their fixed order, each with its flag; the report keeps
    the flagged ones, strips each, joins them with a blank line and strips
    the end of the result. *)

Section Specification.

Context `{ST : Stacktrace} `{TD : Timedelta} `{EX : External}.

Definition spec_code_section (q : Query) (o : Flags.t) : string :=
  if Flags.colored o && Flags.formatted o
  then highlight (code q) Python3Lexer TerminalFormatter
  else code q.

Definition spec_sql_section (q : Query) (o : Flags.t) : string :=
  if Flags.colored o
  then returned (_enhanced_sql (Flags.formatted o) (Flags.colored o)) q
  else sql q.

Definition spec_section_table (q : Query) (o : Flags.t)
  : list (bool * string) :=
  [ (Flags.idx o, "index: " ++ Py.str_int (idx q));
    (Flags.duration o, humanize (duration q));
    (Flags.location o, location q);
    (Flags.code o, spec_code_section q o);
    (Flags.stacktrace o, str_StackTrace (stacktrace q));
    (Flags.sql o, spec_sql_section q o) ].

Definition spec_included_sections (q : Query) (o : Flags.t)
  : list string :=
  map snd (filter fst (spec_section_table q o)).

Definition spec_display_string (q : Query) (o : Flags.t) : string :=
  Py.rstrip
    (Py.join (String "010" (String "010" EmptyString))
       (map Py.strip (spec_included_sections q o))).

(** Two characters are the same letter ignoring case when they are equal
    or one is the small form of the other. *)
Definition caseless_char_eqb (a b : ascii) : bool :=
  Ascii.eqb a b || Ascii.eqb (Py.lower_char a) b
  || Ascii.eqb a (Py.lower_char b).

(** Case-insensitive comparison of two texts, character by character. *)
Fixpoint caseless_eqb (s t : string) : bool :=
  match s, t with
  | EmptyString, EmptyString => true
  | String a s', String b t' => caseless_char_eqb a b && caseless_eqb s' t'
  | _, _ => false
  end.

(** The flags with the SQL section left out. *)
Definition without_sql (o : Flags.t) : Flags.t :=
  Flags.mk (Flags.code o) (Flags.duration o) (Flags.idx o)
           (Flags.location o) (Flags.stacktrace o) false
           (Flags.colored o) (Flags.formatted o).

(** The number of sections that stand before the code section. *)
Definition sections_before_code (o : Flags.t) : nat :=
  (Nat.b2n (Flags.idx o) + Nat.b2n (Flags.duration o)
   + Nat.b2n (Flags.location o))%nat.

(** A method that leaves the record it is called on as it found it. *)
Definition reads_only {A : Type} (m : Method A) : Prop :=
  forall self : Query, self_after m self = self.

End Specification.

(** ** Writing the report

    [Query.display] writes to [sys.stdout]; the stream is the text written
    to it so far. *)

Section Output.

Context `{ST : Stacktrace} `{TD : Timedelta} `{EX : External}.

(** [sys.stdout.write(text)]. *)
Definition stdout_write (text stdout : string) : string := stdout ++ text.

(** The defaults of the signature of [display], lines 87 to 94. *)
Definition display_flags (kw : Kwargs.t) : Flags.t :=
  {| Flags.code := Kwargs.arg true (Kwargs.code kw);
     Flags.duration := Kwargs.arg true (Kwargs.duration kw);
     Flags.idx := Kwargs.arg false (Kwargs.idx kw);
     Flags.location := Kwargs.arg true (Kwargs.location kw);
     Flags.stacktrace := Kwargs.arg false (Kwargs.stacktrace kw);
     Flags.sql := Kwargs.arg true (Kwargs.sql kw);
     Flags.colored := Kwargs.arg true (Kwargs.colored kw);
     Flags.formatted := Kwargs.arg true (Kwargs.formatted kw) |}.

(** [Query.display]: the call of [display_string] with every flag passed
    by keyword, a newline put after its result, one write.  It returns
    nothing; what it leaves is the record and the stream. *)
Definition display (kw : Kwargs.t) (self : Query) (stdout : string)
  : Query * string :=
  let o := display_flags kw in
  let (text, self') := display_string (Kwargs.pass o) self in
  (self', stdout_write (text ++ String Py.LF EmptyString) stdout).

(** The record with another [db_type], the flags with another
    [formatted]. *)
Definition with_db_type (t : string) (q : Query) : Query :=
  {| code := code q; db := db q; duration := duration q; idx := idx q;
     is_select := is_select q; location := location q; params := params q;
     raw_params := raw_params q; sql := sql q;
     sql_parameterized := sql_parameterized q; stacktrace := stacktrace q;
     start_time := start_time q; stop_time := stop_time q; db_type := t |}.

Definition with_formatted (b : bool) (o : Flags.t) : Flags.t :=
  Flags.mk (Flags.code o) (Flags.duration o) (Flags.idx o)
           (Flags.location o) (Flags.stacktrace o) (Flags.sql o)
           (Flags.colored o) b.

(** Flag sets with one plain section. *)
Definition only_location : Flags.t :=
  Flags.mk false false false true false false false false.

Definition only_code : Flags.t :=
  Flags.mk true false false false false false false false.

(** The location and the raw SQL. *)
Definition location_and_sql : Flags.t :=
  Flags.mk false false false true false true false false.

End Output.

(** ** Predicates on texts *)

Module Text.

(** Every character of the text passes the test. *)
Fixpoint all_sat (p : ascii -> bool) (s : string) : bool :=
  match s with
  | EmptyString => true
  | String c s' => p c && all_sat p s'
  end.

(** The character [strip] is called with in [__repr__]. *)
Definition apostrophe (c : ascii) : bool := Py.mem c "'".

(** A character [repr] copies as it is when the delimiter is the
    apostrophe: printable, no apostrophe, no backslash. *)
Definition plain_char (c : ascii) : bool :=
  Py.isprintable c && negb (Ascii.eqb c Py.SQUOTE)
  && negb (Ascii.eqb c Py.BACKSLASH).

Definition plain (s : string) : bool := all_sat plain_char s.

End Text.

(** ** Sample collaborators

    Small stand-ins for the interfaces above, to run the model on concrete
    records. *)

Module Sample.

Record frame : Type := { frame_code : string; frame_location : string }.

#[export] Instance frames : Stacktrace := {|
  StacktraceLine := frame;
  line_code := frame_code;
  line_location := frame_location;
  null := {| frame_code := ""; frame_location := "" |};
  null_code := eq_refl;
  null_location := eq_refl;
  str_StackTrace := fun frames =>
    Py.join (String Py.LF EmptyString) (map frame_location frames)
|}.

(** A duration in milliseconds. *)
#[export] Instance millis : Timedelta := {|
  TimeDelta := Z;
  humanize := fun ms => Py.str_int ms ++ "ms";
  repr_TimeDelta := fun ms => "TimeDelta(" ++ Py.str_int ms ++ ")"
|}.

Definition colour (l : Lexer) : string :=
  match l with
  | SqlLexer => "[34m"
  | PostgresLexer => "[35m"
  | Python3Lexer => "[36m"
  end.

(** A highlighter that wraps the text in one colour per grammar and ends
    it with a newline, and a pretty-printer that puts a fixed indent. *)
#[export] Instance wrapper : External := {|
  PyObject := string;
  highlight := fun text l _ =>
    String Py.ESC (colour l) ++ text ++ String Py.ESC "[39m"
    ++ String Py.LF EmptyString;
  sqlparse_format := fun text reindent =>
    if reindent then Py.strip text else text
|}.

Definition frame_outer : frame :=
  {| frame_code := "run()"; frame_location := "app.py:3 in main" |}.
Definition frame_inner : frame :=
  {| frame_code := "User.objects.all()";
     frame_location := "views.py:12 in index" |}.

(** A record as [create] builds it. *)
Definition query (sql0 db_type0 : string) : Query :=
  {| code := "User.objects.all()";
     db := "default";
     duration := 12%Z;
     idx := 0%Z;
     is_select := true;
     location := "views.py:12 in index";
     params := "()";
     raw_params := [];
     sql := sql0;
     sql_parameterized := sql0;
     stacktrace := [frame_outer; frame_inner];
     start_time := 100%Z;
     stop_time := 112%Z;
     db_type := db_type0 |}.

Definition only_sql_plain : Flags.t :=
  Flags.mk false false false false false true false true.

Definition all_plain : Flags.t :=
  Flags.mk true true true true true true false false.

End Sample.

(** ** The input the highlighter reads

    [pygments.highlight(code, lexer, formatter)] lexes the text the lexer's
    [_preprocess_lexer_input] returns for [code] and formats the tokens.
    The module builds its lexers without options, so the defaults hold:
    [stripnl] and [ensurenl] on, [stripall] off, [tabsize] 0.  (The byte
    order mark the preprocessing also drops is a code point above 255.) *)

Module Pygments.

(** [text.replace] of a carriage return and newline by a newline. *)
Fixpoint replace_crlf (s : string) : string :=
  match s with
  | EmptyString => EmptyString
  | String c s' =>
      if Ascii.eqb c Py.CR
      then match s' with
           | String d s'' =>
               if Ascii.eqb d Py.LF then String Py.LF (replace_crlf s'')
               else String c (replace_crlf s')
           | EmptyString => String c EmptyString
           end
      else String c (replace_crlf s')
  end.

(** [text.replace] of a carriage return by a newline. *)
Fixpoint replace_cr (s : string) : string :=
  match s with
  | EmptyString => EmptyString
  | String c s' =>
      String (if Ascii.eqb c Py.CR then Py.LF else c) (replace_cr s')
  end.

(** [text.endswith] of a newline. *)
Fixpoint endswith_lf (s : string) : bool :=
  match s with
  | EmptyString => false
  | String c EmptyString => Ascii.eqb c Py.LF
  | String _ s' => endswith_lf s'
  end.

(** [Lexer._preprocess_lexer_input] on a [str], default options. *)
Definition preprocess (text : string) : string :=
  let text := replace_crlf text in
  let text := replace_cr text in
  let text := Py.strip_chars (String Py.LF EmptyString) text in
  if endswith_lf text then text else text ++ String Py.LF EmptyString.

(** The libraries with the highlighter split in its two steps: the
    preprocessing above, then the lexing and formatting of the text it
    returns, which [render] stands for. *)
Definition external (render : Lexer -> string -> string)
    (reindent : string -> string) : External :=
  {| PyObject := string;
     highlight := fun text lexer _ => render lexer (preprocess text);
     sqlparse_format := fun text _ => reindent text |}.


Definition query (render : Lexer -> string -> string)
    (reindent : string -> string) (sql0 : string)
  : @Query Sample.frames Sample.millis (external render reindent) :=
  @Build_Query Sample.frames Sample.millis (external render reindent)
    "User.objects.all()" "default" 12%Z 0%Z true "views.py:12 in index"
    "()" [] sql0 sql0 [Sample.frame_outer; Sample.frame_inner] 100%Z 112%Z
    "mysql".

End Pygments.

(** ** The place of the code section *)

(** The flags of the sections before the code section, and of those after
    it. *)
Definition sections_up_to_location (o : Flags.t) : Flags.t :=
  Flags.mk false (Flags.duration o) (Flags.idx o) (Flags.location o)
           false false (Flags.colored o) (Flags.formatted o).

Definition sections_after_code (o : Flags.t) : Flags.t :=
  Flags.mk false false false false (Flags.stacktrace o) (Flags.sql o)
           (Flags.colored o) (Flags.formatted o).

(** A sample record whose code has spaces around it. *)
Definition padded_code_query
  : @Query Sample.frames Sample.millis Sample.wrapper :=
  @Build_Query Sample.frames Sample.millis Sample.wrapper
    "  x = 1  " "default" 12%Z 0%Z true "views.py:12 in index"
    "()" [] "SELECT 1" "SELECT 1" [Sample.frame_outer; Sample.frame_inner]
    100%Z 112%Z "mysql".

(** * Properties *)

(** ** Facts about the string operations *)

Module PyFacts.
Import Py.

Lemma rstrip_by_idempotent (p : ascii -> bool) (s : string) :
  rstrip_by p (rstrip_by p s) = rstrip_by p s.
Proof.
  induction s as [|c s IH]; simpl; [reflexivity|].
  destruct (rstrip_by p s) as [|d r] eqn:E.
  - destruct (p c) eqn:Hc; simpl; [reflexivity | now rewrite Hc].
  - simpl in *. now rewrite IH.
Qed.

Lemma rstrip_strip (s : string) : rstrip (strip s) = strip s.
Proof. apply rstrip_by_idempotent. Qed.

Lemma lstrip_by_length (p : ascii -> bool) (s : string) :
  (String.length (lstrip_by p s) <= String.length s)%nat.
Proof.
  induction s as [|c s IH]; simpl; [lia|].
  destruct (p c); simpl; lia.
Qed.

Lemma rstrip_by_length (p : ascii -> bool) (s : string) :
  (String.length (rstrip_by p s) <= String.length s)%nat.
Proof.
  induction s as [|c s IH]; simpl; [lia|].
  destruct (rstrip_by p s); [destruct (p c)|]; simpl in *; lia.
Qed.

Lemma strip_by_length (p : ascii -> bool) (s : string) :
  (String.length (strip_by p s) <= String.length s)%nat.
Proof.
  unfold strip_by.
  pose proof (rstrip_by_length p (lstrip_by p s)).
  pose proof (lstrip_by_length p s). lia.
Qed.

Lemma slice_to_length (n : nat) (s : string) :
  (String.length (slice_to n s) <= n)%nat.
Proof.
  revert s; induction n as [|n IH]; intros [|c s]; simpl; try lia.
  specialize (IH s). lia.
Qed.

Lemma slice_to_short (n : nat) (s : string) :
  (String.length s <= n)%nat -> slice_to n s = s.
Proof.
  revert s; induction n as [|n IH]; intros [|c s]; simpl; intros H;
    try reflexivity; try lia.
  f_equal. apply IH. lia.
Qed.

(** What [lstrip] leaves does not start with a stripped character. *)
Lemma lstrip_by_head (p : ascii -> bool) (s : string) (c : ascii)
    (r : string) :
  lstrip_by p s = String c r -> p c = false.
Proof.
  induction s as [|d s IH]; simpl; [discriminate|].
  destruct (p d) eqn:Hd; [exact IH|].
  intros H; injection H as -> _. exact Hd.
Qed.

(** What [rstrip] leaves does not end with a stripped character. *)
Lemma rstrip_by_last (p : ascii -> bool) (s r : string) (c : ascii) :
  rstrip_by p s = r ++ String c EmptyString -> p c = false.
Proof.
  revert r; induction s as [|d s IH]; intros r; simpl.
  - destruct r; discriminate.
  - destruct (rstrip_by p s) as [|e t] eqn:E.
    + destruct (p d) eqn:Hd.
      * destruct r; discriminate.
      * destruct r as [|x r]; simpl; intros H.
        -- injection H as ->. exact Hd.
        -- injection H as _ H. destruct r; discriminate.
    + destruct r as [|x r]; simpl; intros H; [discriminate|].
      injection H as _ H. exact (IH _ H).
Qed.

Lemma rstrip_by_head (p : ascii -> bool) (s : string) (c : ascii)
    (r : string) :
  rstrip_by p s = String c r -> exists r', s = String c r'.
Proof.
  destruct s as [|d s]; simpl; [discriminate|].
  destruct (rstrip_by p s); [destruct (p d)|]; intros H;
    try discriminate; injection H as -> _; eauto.
Qed.

(** A first character that is not stripped stays first. *)
Lemma strip_by_keeps_head (p : ascii -> bool) (c : ascii) (s : string) :
  p c = false -> exists r, strip_by p (String c s) = String c r.
Proof.
  intros H. unfold strip_by. simpl. rewrite H. simpl.
  destruct (rstrip_by p s); [rewrite H|]; eauto.
Qed.

(** A non-empty end that [rstrip] keeps protects what stands before. *)
Lemma rstrip_by_app_kept (p : ascii -> bool) (a t : string) :
  t <> EmptyString -> rstrip_by p t = t -> rstrip_by p (a ++ t) = a ++ t.
Proof.
  intros Hne Ht. induction a as [|c a IH]; simpl; [exact Ht|].
  rewrite IH. destruct (a ++ t) eqn:E; [|reflexivity].
  destruct a; simpl in E; [congruence | discriminate].
Qed.

Lemma append_assoc (a b c : string) : (a ++ b) ++ c = a ++ (b ++ c).
Proof. induction a as [|x a IH]; simpl; [reflexivity | now rewrite IH]. Qed.

Lemma join_snoc (sep : string) (xs : list string) (x : string) :
  xs <> [] -> join sep (xs ++ [x]) = join sep xs ++ sep ++ x.
Proof.
  unfold join. induction xs as [|y ys IH]; [congruence|]; intros _.
  destruct ys as [|z zs]; simpl; [reflexivity|].
  simpl in IH. rewrite IH by discriminate.
  now rewrite !append_assoc.
Qed.

Lemma all_chars_complete (c : ascii) : In c all_chars.
Proof.
  rewrite <- (ascii_nat_embedding c). apply in_map, in_seq.
  pose proof (nat_ascii_bounded c). lia.
Qed.

Lemma lower_char_idempotent (c : ascii) :
  lower_char (lower_char c) = lower_char c.
Proof.
  assert (H : forallb (fun a => Ascii.eqb (lower_char (lower_char a))
                                  (lower_char a)) all_chars = true)
    by (vm_compute; reflexivity).
  rewrite forallb_forall in H.
  apply Ascii.eqb_eq, H, all_chars_complete.
Qed.

Lemma lower_idempotent (s : string) : lower (lower s) = lower s.
Proof.
  induction s as [|c s IH]; simpl; [reflexivity|].
  now rewrite lower_char_idempotent, IH.
Qed.

End PyFacts.

(** ** The factory *)

Section Factory.

Context `{ST : Stacktrace} `{TD : Timedelta} `{EX : External}.

Lemma getitem_last (A : Type) (xs : list A) (x : A) :
  getitem (xs ++ [x])%list (-1) = Ok x.
Proof.
  unfold getitem. rewrite length_app, Nat2Z.inj_add. simpl length.
  change (-1 <? 0)%Z with true. cbv iota.
  replace (-1 + (Z.of_nat (length xs) + Z.of_nat 1))%Z
    with (Z.of_nat (length xs)) by lia.
  destruct (Z.ltb_spec (Z.of_nat (length xs)) 0); [lia|].
  destruct (Z.leb_spec (Z.of_nat (length xs) + Z.of_nat 1)
              (Z.of_nat (length xs))); [lia|].
  simpl. rewrite Nat2Z.id, nth_error_app2, Nat.sub_diag by lia.
  reflexivity.
Qed.

Lemma nonempty_snoc (A : Type) (xs : list A) :
  xs <> [] -> exists front x, xs = (front ++ [x])%list.
Proof.
  intros H. destruct (exists_last H) as (front & x & ->). eauto.
Qed.

(** C1.  [Query.create] always returns a record.  When the stack trace is
    not empty, so that it is some frames followed by a last one, the
    record's [code] and [location] are the code and the location of that
    last frame; when it is empty both are the empty string.  Every other
    field is the argument of the same name. *)
Theorem create_code_and_location
    (db0 : string) (duration0 : TimeDelta) (idx0 : Z) (is_select0 : bool)
    (params0 : string) (raw_params0 : list PyObject)
    (sql0 sql_parameterized0 : string) (stacktrace0 : StackTrace)
    (start_time0 stop_time0 : Z) (db_type0 : string) :
  exists q : Query,
    create db0 duration0 idx0 is_select0 params0 raw_params0 sql0
      sql_parameterized0 stacktrace0 start_time0 stop_time0 db_type0
    = Ok q
    /\ (forall frames last, stacktrace0 = (frames ++ [last])%list ->
          code q = line_code last /\ location q = line_location last)
    /\ (stacktrace0 = [] -> code q = "" /\ location q = "")
    /\ db q = db0 /\ duration q = duration0 /\ idx q = idx0
    /\ is_select q = is_select0 /\ params q = params0
    /\ raw_params q = raw_params0 /\ sql q = sql0
    /\ sql_parameterized q = sql_parameterized0
    /\ stacktrace q = stacktrace0 /\ start_time q = start_time0
    /\ stop_time q = stop_time0 /\ db_type q = db_type0.
Proof.
  unfold create.
  destruct stacktrace0 as [|f fs] eqn:E.
  - simpl. eexists; split; [reflexivity|]. simpl.
    split; [intros [|? ?] ? H; discriminate|].
    split; [intros _; split; [apply null_code | apply null_location]|].
    repeat split.
  - destruct (@nonempty_snoc _ (f :: fs)) as (front & x & Hx);
      [discriminate|].
    rewrite Hx. replace (truthy (front ++ [x])%list) with true
      by (destruct front; reflexivity).
    rewrite getitem_last.
    eexists; split; [reflexivity|]. simpl.
    split.
    { intros frames last H. apply app_inj_tail in H as [_ ->]. auto. }
    split; [intros H; destruct front; discriminate|].
    repeat split.
Qed.

End Factory.

(** ** Methods that only read *)

Section ReadOnly.

Context `{ST : Stacktrace} `{TD : Timedelta} `{EX : External}.

Lemma reads_only_ret (A : Type) (a : A) : reads_only (ret a).
Proof. intros self. reflexivity. Qed.

Lemma reads_only_getattr (A : Type) (attr : Query -> A) :
  reads_only (getattr attr).
Proof. intros self. reflexivity. Qed.

Lemma reads_only_bind (A B : Type) (m : Method A) (k : A -> Method B) :
  reads_only m -> (forall a, reads_only (k a)) -> reads_only (bind m k).
Proof.
  intros Hm Hk self. unfold self_after, bind.
  specialize (Hm self). unfold self_after in Hm.
  destruct (m self) as [a self']. simpl in Hm. subst self'.
  apply Hk.
Qed.

Lemma reads_only_if (A : Type) (b : bool) (m1 m2 : Method A) :
  reads_only m1 -> reads_only m2 -> reads_only (if b then m1 else m2).
Proof. destruct b; auto. Qed.

(** The result of a reading method run after another one. *)
Lemma returned_bind (A B : Type) (m : Method A) (k : A -> Method B)
    (self : Query) :
  reads_only m -> returned (bind m k) self = returned (k (returned m self)) self.
Proof.
  intros Hm. unfold returned, bind.
  specialize (Hm self). unfold self_after in Hm.
  destruct (m self) as [a self']. simpl in *. now subst.
Qed.

(** An assignment does change the record: the store is a real one. *)
Lemma setattr_writes (update : Query -> Query) (self : Query) :
  self_after (setattr update) self = update self.
Proof. reflexivity. Qed.

End ReadOnly.

Create HintDb reads.
#[export] Hint Resolve reads_only_ret reads_only_getattr reads_only_bind
  reads_only_if : reads.

(** A method built from reads, binds and tests reads only; [known] closes
    the calls to methods already shown to. *)
Ltac reads_only_with known :=
  repeat first
    [ known
    | apply reads_only_bind; [|intros ?]
    | apply reads_only_if
    | solve [auto with reads] ].

(** ** The report *)

Section Report.

Context `{ST : Stacktrace} `{TD : Timedelta} `{EX : External}.

Lemma reads_only_enhanced_sql_lexer : reads_only _enhanced_sql_lexer.
Proof. unfold _enhanced_sql_lexer. reads_only_with fail. Qed.

Lemma reads_only_enhanced_sql (formatted colored : bool) :
  reads_only (_enhanced_sql formatted colored).
Proof.
  unfold _enhanced_sql.
  reads_only_with ltac:(apply reads_only_enhanced_sql_lexer).
Qed.

Lemma reads_only_display_attributes (o : Flags.t) :
  reads_only (display_attributes o).
Proof.
  unfold display_attributes.
  reads_only_with ltac:(apply reads_only_enhanced_sql).
Qed.

Lemma reads_only_display_sections (o : Flags.t) :
  reads_only (display_sections o).
Proof.
  unfold display_sections.
  reads_only_with ltac:(apply reads_only_display_attributes).
Qed.

Lemma reads_only_display_string (kw : Kwargs.t) :
  reads_only (display_string kw).
Proof.
  unfold display_string.
  reads_only_with ltac:(apply reads_only_display_sections).
Qed.

Lemma reads_only_repr : reads_only __repr__.
Proof. unfold __repr__, truncated_sql. reads_only_with fail. Qed.

(** C9.  The display operations leave the record as they found it: after
    [display_string], [__str__], [_enhanced_sql] or [__repr__], whatever
    their options, the record equals the record before the call, and so
    does its [sql] field. *)
Theorem display_operations_read_only
    (q : Query) (kw : Kwargs.t) (formatted colored : bool) :
  self_after (display_string kw) q = q
  /\ self_after __str__ q = q
  /\ self_after (_enhanced_sql formatted colored) q = q
  /\ self_after __repr__ q = q
  /\ sql (self_after (_enhanced_sql formatted colored) q) = sql q.
Proof.
  pose proof (reads_only_enhanced_sql formatted colored q) as He.
  split; [apply reads_only_display_string|].
  split; [apply (reads_only_display_string Kwargs.none)|].
  split; [exact He|].
  split; [apply reads_only_repr | now rewrite He].
Qed.

(** The list the appends build is the flagged rows of the section table. *)
Lemma display_attributes_table (q : Query) (o : Flags.t) :
  returned (display_attributes o) q = spec_included_sections q o.
Proof.
  destruct o as [c d i l s sq col fmt].
  destruct c, d, i, l, s, sq, col, fmt; reflexivity.
Qed.

Lemma display_sections_returned (q : Query) (o : Flags.t) :
  returned (display_sections o) q
  = map Py.strip (returned (display_attributes o) q).
Proof.
  unfold display_sections.
  rewrite returned_bind by apply reads_only_display_attributes.
  reflexivity.
Qed.

Lemma display_string_returned (q : Query) (kw : Kwargs.t) :
  returned (display_string kw) q
  = Py.rstrip (Py.join blank_line
                 (returned (display_sections (Kwargs.resolve kw)) q)).
Proof.
  unfold display_string.
  rewrite returned_bind by apply reads_only_display_sections.
  reflexivity.
Qed.

Lemma resolve_pass (o : Flags.t) : Kwargs.resolve (Kwargs.pass o) = o.
Proof. destruct o; reflexivity. Qed.

(** C3.  Whatever the flags, the sections [display_string] builds are
    the flagged ones of index, duration, location, code, stack trace and
    SQL, in that order, empty ones included; it strips each, joins them
    with two newline characters and strips the end of the result. *)
Theorem display_string_sections_in_order (q : Query) (o : Flags.t) :
  returned (display_attributes o) q = spec_included_sections q o
  /\ returned (display_sections o) q
     = map Py.strip (spec_included_sections q o)
  /\ returned (display_string (Kwargs.pass o)) q = spec_display_string q o.
Proof.
  split; [apply display_attributes_table|].
  split.
  - now rewrite display_sections_returned, display_attributes_table.
  - rewrite display_string_returned, resolve_pass,
      display_sections_returned, display_attributes_table.
    reflexivity.
Qed.

(** C4.  With the six section flags off, [display_string] returns the
    empty string, whatever [colored] and [formatted] are. *)
Theorem display_string_no_section (q : Query) (colored formatted : bool) :
  returned
    (display_string
       (Kwargs.pass
          {| Flags.code := false; Flags.duration := false;
             Flags.idx := false; Flags.location := false;
             Flags.stacktrace := false; Flags.sql := false;
             Flags.colored := colored; Flags.formatted := formatted |}))
    q
  = "".
Proof.
  rewrite display_string_returned, resolve_pass, display_sections_returned,
    display_attributes_table.
  (* no row of the table is flagged: nothing to strip, join or trim *)
  unfold spec_included_sections, spec_section_table. cbn [filter fst map].
  reflexivity.
Qed.

(** C10.  [str] of a record is [display_string] with the code, duration,
    location and SQL sections on, the index and the stack trace off, and
    [colored] and [formatted] on: the same result and the same record
    after the call.  These are the defaults a call without keyword
    arguments resolves to, and the report is the duration, the location,
    the highlighted code and the pretty-printed, highlighted SQL. *)
Theorem str_is_default_display_string (q : Query) :
  __str__ q
  = display_string
      (Kwargs.pass
         {| Flags.code := true; Flags.duration := true;
            Flags.idx := false; Flags.location := true;
            Flags.stacktrace := false; Flags.sql := true;
            Flags.colored := true; Flags.formatted := true |})
      q
  /\ Kwargs.resolve Kwargs.none
     = {| Flags.code := true; Flags.duration := true;
          Flags.idx := false; Flags.location := true;
          Flags.stacktrace := false; Flags.sql := true;
          Flags.colored := true; Flags.formatted := true |}
  /\ returned __str__ q
     = Py.rstrip
         (Py.join blank_line
            [ Py.strip (humanize (duration q));
              Py.strip (location q);
              Py.strip (highlight (code q) Python3Lexer TerminalFormatter);
              Py.strip (highlight (sqlparse_format (sql q) true)
                          (returned _enhanced_sql_lexer q)
                          TerminalFormatter) ]).
Proof.
  split; [reflexivity|]. split; [reflexivity|].
  unfold __str__. rewrite display_string_returned.
  change (Kwargs.resolve Kwargs.none)
    with (Flags.mk true true false true false true true true).
  rewrite display_sections_returned, display_attributes_table.
  reflexivity.
Qed.

End Report.

(** ** What the highlighter's preprocessing keeps *)

Module PygmentsFacts.
Import Pygments.







End PygmentsFacts.

(** ** The SQL section and the code section *)

Section SqlAndCode.

Context `{ST : Stacktrace} `{TD : Timedelta} `{EX : External}.

Lemma plain_sections_snoc (q : Query) (o : Flags.t) :
  Flags.sql o = true -> Flags.colored o = false ->
  returned (display_sections o) q
  = (returned (display_sections (without_sql o)) q
     ++ [Py.strip (sql q)])%list.
Proof.
  destruct o as [c d i l s sq col fmt]. simpl. intros -> ->.
  destruct c, d, i, l, s, fmt; reflexivity.
Qed.

(** C2, amended.  With [sql] on and [colored] off, the SQL section is the
    last section of the report and it is the raw [sql] field with its
    leading and trailing whitespace stripped, no highlighter or
    pretty-printer applied: the report is the stripped sections joined,
    it ends with the stripped SQL when that is not empty, and it is the
    stripped SQL when no other section is on. *)
Theorem plain_sql_section_is_stripped_sql (q : Query) (o : Flags.t) :
  Flags.sql o = true -> Flags.colored o = false ->
  let before := returned (display_sections (without_sql o)) q in
  returned (display_sections o) q = (before ++ [Py.strip (sql q)])%list
  /\ returned (display_string (Kwargs.pass o)) q
     = Py.rstrip (Py.join blank_line (before ++ [Py.strip (sql q)])%list)
  /\ (Py.strip (sql q) <> "" ->
      exists head, returned (display_string (Kwargs.pass o)) q
                   = head ++ Py.strip (sql q))
  /\ (before = [] ->
      returned (display_string (Kwargs.pass o)) q = Py.strip (sql q)).
Proof.
  intros Hsql Hcol before.
  pose proof (plain_sections_snoc q o Hsql Hcol) as Hs. fold before in Hs.
  assert (Hd : returned (display_string (Kwargs.pass o)) q
               = Py.rstrip (Py.join blank_line
                              (before ++ [Py.strip (sql q)])%list))
    by now rewrite display_string_returned, resolve_pass, Hs.
  split; [exact Hs|]. split; [exact Hd|]. split.
  - intros Hne. rewrite Hd. destruct before as [|b bs] eqn:E.
    + exists "". simpl. apply PyFacts.rstrip_strip.
    + rewrite <- E. rewrite PyFacts.join_snoc by (rewrite E; discriminate).
      exists (Py.join blank_line before ++ blank_line).
      rewrite <- PyFacts.append_assoc.
      apply PyFacts.rstrip_by_app_kept; [exact Hne|].
      apply PyFacts.rstrip_strip.
  - intros Hb. rewrite Hd, Hb. simpl. apply PyFacts.rstrip_strip.
Qed.

(** C7, amended.  With [code] on, the code section of the report stands
    after the index, duration and location sections that are on and before
    the stack trace and SQL sections; it is, with its leading and trailing
    whitespace stripped, the code field highlighted with the Python
    grammar and the terminal formatter when [colored] and [formatted] are
    both on, and the code field whenever either is off.  The report is
    these sections joined; with no other section on it is the stripped
    code section. *)
Theorem code_section_of_report_is_stripped (q : Query) (o : Flags.t) :
  Flags.code o = true ->
  let shown :=
    Py.strip (if Flags.colored o && Flags.formatted o
              then highlight (code q) Python3Lexer TerminalFormatter
              else code q) in
  let sections :=
    (returned (display_sections (sections_up_to_location o)) q
     ++ shown :: returned (display_sections (sections_after_code o)) q)%list
  in
  returned (display_sections o) q = sections
  /\ returned (display_string (Kwargs.pass o)) q
     = Py.rstrip (Py.join blank_line sections)
  /\ (Flags.colored o = true -> Flags.formatted o = true ->
      shown = Py.strip (highlight (code q) Python3Lexer TerminalFormatter))
  /\ (Flags.colored o = false \/ Flags.formatted o = false ->
      shown = Py.strip (code q))
  /\ (Flags.idx o = false -> Flags.duration o = false ->
      Flags.location o = false -> Flags.stacktrace o = false ->
      Flags.sql o = false ->
      returned (display_string (Kwargs.pass o)) q = shown).
Proof.
  intros Hcode shown sections.
  assert (Hs : returned (display_sections o) q = sections).
  { subst sections shown. destruct o as [c d i l s sq col fmt].
    simpl in Hcode. subst c.
    destruct d, i, l, s, sq, col, fmt; reflexivity. }
  split; [exact Hs|].
  split; [now rewrite display_string_returned, resolve_pass, Hs|].
  split; [intros Hc Hf; subst shown; now rewrite Hc, Hf|].
  split.
  - intros [H | H]; subst shown; rewrite H;
      [reflexivity | now rewrite andb_false_r].
  - intros Hi Hd Hl Hst Hsq.
    rewrite display_string_returned, resolve_pass, Hs.
    subst sections. destruct o as [c d i l s sq col fmt]. simpl in *.
    subst. cbn. apply PyFacts.rstrip_strip.
Qed.

(** Case-insensitive comparison is equality of the lowered texts. *)
Lemma caseless_char_eqb_lower (a b : ascii) :
  caseless_char_eqb a b
  = Ascii.eqb (Py.lower_char a) (Py.lower_char b).
Proof.
  assert (H : forallb (fun x => forallb (fun y =>
                Bool.eqb (caseless_char_eqb x y)
                  (Ascii.eqb (Py.lower_char x) (Py.lower_char y)))
                Py.all_chars) Py.all_chars = true)
    by (vm_compute; reflexivity).
  rewrite forallb_forall in H.
  specialize (H a (PyFacts.all_chars_complete a)).
  rewrite forallb_forall in H.
  apply Bool.eqb_prop, H, PyFacts.all_chars_complete.
Qed.

Lemma caseless_eqb_lower (s t : string) :
  caseless_eqb s t = String.eqb (Py.lower s) (Py.lower t).
Proof.
  revert t; induction s as [|a s IH]; intros [|b t]; simpl;
    try reflexivity.
  rewrite caseless_char_eqb_lower, IH. reflexivity.
Qed.

Lemma enhanced_sql_lexer_returned (q : Query) :
  returned _enhanced_sql_lexer q
  = if caseless_eqb (db_type q) "postgresql" then PostgresLexer
    else SqlLexer.
Proof. rewrite caseless_eqb_lower. reflexivity. Qed.

(** C5.  [_enhanced_sql] takes the PostgreSQL grammar exactly when
    [db_type] equals the text postgresql up to letter case, and the
    generic SQL grammar for every other [db_type]; it returns for every
    record, and the grammar it took is the one it highlights with. *)
Theorem enhanced_sql_grammar (q : Query) :
  (returned _enhanced_sql_lexer q = PostgresLexer
   <-> caseless_eqb (db_type q) "postgresql" = true)
  /\ (returned _enhanced_sql_lexer q = SqlLexer
      <-> caseless_eqb (db_type q) "postgresql" = false)
  /\ (forall formatted : bool,
        returned (_enhanced_sql formatted true) q
        = highlight (if formatted then sqlparse_format (sql q) true
                     else sql q)
            (if caseless_eqb (db_type q) "postgresql" then PostgresLexer
             else SqlLexer)
            TerminalFormatter).
Proof.
  pose proof (enhanced_sql_lexer_returned q) as H.
  split; [|split].
  - rewrite H. destruct (caseless_eqb _ _); split; congruence.
  - rewrite H. destruct (caseless_eqb _ _); split; congruence.
  - intros formatted. rewrite <- H. destruct formatted; reflexivity.
Qed.


End SqlAndCode.

(** ** The diagnostic representation *)

Section Repr.

Context `{ST : Stacktrace} `{TD : Timedelta} `{EX : External}.

Lemma truncated_sql_returned (q : Query) :
  returned truncated_sql q
  = Py.strip_chars "'" (Py.slice_to 30 (Py.repr_str (sql q))).
Proof. reflexivity. Qed.

(** The excerpt has at most 30 characters, whatever the length of the
    SQL text. *)
Lemma truncated_sql_length (q : Query) :
  (String.length (returned truncated_sql q) <= 30)%nat.
Proof.
  rewrite truncated_sql_returned. unfold Py.strip_chars.
  pose proof (PyFacts.strip_by_length (fun c => Py.mem c "'")
                (Py.slice_to 30 (Py.repr_str (sql q)))).
  pose proof (PyFacts.slice_to_length 30 (Py.repr_str (sql q))). lia.
Qed.

(** On a short text the slice keeps the whole representation. *)
Lemma truncated_sql_short (q : Query) :
  (String.length (Py.repr_str (sql q)) <= 30)%nat ->
  returned truncated_sql q = Py.strip_chars "'" (Py.repr_str (sql q)).
Proof.
  intros H. rewrite truncated_sql_returned.
  now rewrite PyFacts.slice_to_short.
Qed.

(** The excerpt neither starts nor ends with an apostrophe. *)
Lemma truncated_sql_apostrophes (q : Query) :
  (forall c r, returned truncated_sql q = String c r -> c <> Py.SQUOTE)
  /\ (forall r c, returned truncated_sql q = r ++ String c EmptyString ->
                  c <> Py.SQUOTE).
Proof.
  rewrite truncated_sql_returned. unfold Py.strip_chars, Py.strip_by.
  split.
  - intros c r H.
    destruct (PyFacts.rstrip_by_head _ _ _ _ H) as [r' H'].
    apply PyFacts.lstrip_by_head in H'. intros ->. discriminate.
  - intros r c H. apply PyFacts.rstrip_by_last in H. intros ->.
    discriminate.
Qed.

(** When the SQL text has an apostrophe and no double quote, the excerpt
    starts with the double quote that [repr] opened with. *)
Lemma truncated_sql_double_quote (q : Query) :
  Py.mem Py.SQUOTE (sql q) = true -> Py.mem Py.DQUOTE (sql q) = false ->
  exists rest, returned truncated_sql q = String Py.DQUOTE rest.
Proof.
  intros Hs Hd. rewrite truncated_sql_returned.
  unfold Py.repr_str, Py.repr_quote. rewrite Hs, Hd. cbv beta iota zeta.
  change (negb false) with true. cbv beta iota.
  set (body := Py.repr_body Py.DQUOTE (sql q) ++ String Py.DQUOTE "").
  change (Py.slice_to 30 (String Py.DQUOTE body))
    with (String Py.DQUOTE (Py.slice_to 29 body)).
  apply PyFacts.strip_by_keeps_head. reflexivity.
Qed.

(** The representation ends with the excerpt, an ellipsis and the closing
    apostrophe and bracket. *)
Lemma repr_ends_with_ellipsis (q : Query) :
  exists head,
    returned __repr__ q
    = head ++ "sql='" ++ returned truncated_sql q ++ "...')".
Proof.
  exists ("Query(" ++ "idx=" ++ Py.str_int (idx q) ++ ", "
          ++ "code='" ++ code q ++ "', "
          ++ "duration=" ++ repr_TimeDelta (duration q) ++ ", "
          ++ "location='" ++ location q ++ "', ").
  unfold returned, __repr__, truncated_sql, bind, ret, getattr. cbn [fst].
  repeat rewrite PyFacts.append_assoc. reflexivity.
Qed.

End Repr.

(** ** The model on sample records *)

Module Checks.
Import Sample.

(** C1 on a two-frame stack. *)
Lemma create_code_and_location_witness :
  exists q : Query,
    @create frames millis wrapper "default" 12%Z 0%Z true "()" []
      "SELECT 1" "SELECT 1" [frame_outer; frame_inner] 100%Z 112%Z
      "mysql" = Ok q
    /\ code q = "User.objects.all()"
    /\ location q = "views.py:12 in index".
Proof.
  destruct (@create_code_and_location frames millis wrapper "default"
              12%Z 0%Z true "()" [] "SELECT 1" "SELECT 1"
              [frame_outer; frame_inner] 100%Z 112%Z "mysql")
    as (q & Hq & Hlast & _).
  exists q. split; [exact Hq|].
  apply (Hlast [frame_outer] frame_inner). reflexivity.
Defined.

Example create_empty_stack :
  @create frames millis wrapper "default" 12%Z 0%Z true "()" []
    "SELECT 1" "SELECT 1" [] 100%Z 112%Z "mysql"
  = Ok {| code := ""; db := "default"; duration := 12%Z; idx := 0%Z;
          is_select := true; location := ""; params := "()";
          raw_params := []; sql := "SELECT 1";
          sql_parameterized := "SELECT 1"; stacktrace := [];
          start_time := 100%Z; stop_time := 112%Z; db_type := "mysql" |}.
Proof. reflexivity. Qed.

(** C2, as stated, fails: with only the SQL section on and [colored]
    off, a raw SQL text that starts with a space is reported without
    it. *)
Lemma plain_sql_section_differs_from_raw_sql :
  Flags.sql only_sql_plain = true
  /\ Flags.colored only_sql_plain = false
  /\ sql (query " SELECT 1" "mysql") = " SELECT 1"
  /\ returned (display_sections only_sql_plain) (query " SELECT 1" "mysql")
     = ["SELECT 1"]
  /\ returned (display_string (Kwargs.pass only_sql_plain))
       (query " SELECT 1" "mysql") = "SELECT 1"
  /\ returned (display_string (Kwargs.pass only_sql_plain))
       (query " SELECT 1" "mysql")
     <> sql (query " SELECT 1" "mysql").
Proof. repeat split; try reflexivity. discriminate. Qed.

Lemma plain_sql_section_is_stripped_sql_witness :
  Flags.sql only_sql_plain = true
  /\ Flags.colored only_sql_plain = false
  /\ returned (display_string (Kwargs.pass only_sql_plain))
       (query " SELECT 1" "mysql")
     = Py.strip " SELECT 1".
Proof.
  split; [reflexivity|]. split; [reflexivity|].
  destruct (plain_sql_section_is_stripped_sql (query " SELECT 1" "mysql")
              only_sql_plain eq_refl eq_refl) as (_ & _ & _ & H).
  apply H. reflexivity.
Defined.

(** C7, as stated, fails: with only the code section on and [colored]
    off, a code field with spaces around it is reported without them. *)
Lemma plain_code_section_differs_from_code_field :
  Flags.code only_code = true
  /\ Flags.colored only_code = false
  /\ code padded_code_query = "  x = 1  "
  /\ returned (display_string (Kwargs.pass only_code)) padded_code_query
     = "x = 1"
  /\ returned (display_string (Kwargs.pass only_code)) padded_code_query
     <> code padded_code_query.
Proof. repeat split; try reflexivity. discriminate. Qed.

Lemma code_section_of_report_witness :
  Flags.code only_code = true
  /\ returned (display_string (Kwargs.pass only_code)) padded_code_query
     = Py.strip "  x = 1  ".
Proof.
  split; [reflexivity|].
  destruct (code_section_of_report_is_stripped padded_code_query only_code
              eq_refl) as (_ & _ & _ & _ & H).
  apply H; reflexivity.
Defined.



(** The grammar on the two examples of the specification. *)
Example grammar_mixed_case :
  returned _enhanced_sql_lexer (query "SELECT 1" "PostgreSQL")
  = PostgresLexer.
Proof. reflexivity. Qed.

Example grammar_mysql :
  returned _enhanced_sql_lexer (query "SELECT 1" "mysql") = SqlLexer.
Proof. reflexivity. Qed.

(** C8 on an SQL text with an apostrophe and no double quote: [repr]
    delimits it with double quotes, stripping apostrophes removes neither
    of them, and the excerpt keeps both. *)
Theorem repr_excerpt_keeps_double_quotes :
  Py.repr_str (sql (query "SELECT 'a'" "mysql"))
  = String Py.DQUOTE ("SELECT 'a'" ++ String Py.DQUOTE EmptyString)
  /\ returned truncated_sql (query "SELECT 'a'" "mysql")
     = String Py.DQUOTE ("SELECT 'a'" ++ String Py.DQUOTE EmptyString)
  /\ returned __repr__ (query "SELECT 'a'" "mysql")
     = "Query(idx=0, code='User.objects.all()', duration=TimeDelta(12), "
       ++ "location='views.py:12 in index', sql='"
       ++ String Py.DQUOTE ("SELECT 'a'" ++ String Py.DQUOTE "...')").
Proof. repeat split. Qed.

(** The default report of a sample record: duration, location, highlighted
    code, highlighted SQL, a blank line between them and nothing after. *)
Example str_of_sample :
  returned __str__ (query "  SELECT 1 " "PostgreSQL")
  = "12ms" ++ blank_line
    ++ "views.py:12 in index" ++ blank_line
    ++ String Py.ESC "[36mUser.objects.all()" ++ String Py.ESC "[39m"
    ++ blank_line
    ++ String Py.ESC "[35mSELECT 1" ++ String Py.ESC "[39m".
Proof. reflexivity. Qed.

(** With [colored] and [formatted] on, the code section is the highlighted
    code field. *)
Example code_section_highlighted :
  returned
    (display_attributes
       (Flags.mk true false false false false false true true))
    (query "SELECT 1" "mysql")
  = [ String Py.ESC "[36mUser.objects.all()" ++ String Py.ESC "[39m"
      ++ String Py.LF EmptyString ].
Proof. reflexivity. Qed.

Example repr_short_sql :
  returned __repr__ (query "x" "mysql")
  = "Query(idx=0, code='User.objects.all()', duration=TimeDelta(12), "
    ++ "location='views.py:12 in index', sql='x...')".
Proof. reflexivity. Qed.

Example repr_long_sql :
  returned truncated_sql
    (query "SELECT * FROM a_very_long_table_name_x" "mysql")
  = "SELECT * FROM a_very_long_tab".
Proof. reflexivity. Qed.

End Checks.


(** * Further properties of the module *)

(** ** More facts about the string operations *)

Module TextFacts.
Import Py Text.

Lemma all_sat_app (p : ascii -> bool) (a b : string) :
  all_sat p (a ++ b) = all_sat p a && all_sat p b.
Proof.
  induction a as [|c a IH]; simpl; [reflexivity|].
  now rewrite IH, andb_assoc.
Qed.

Lemma all_sat_weaken (p r : ascii -> bool) (s : string) :
  (forall c, p c = true -> r c = true) ->
  all_sat p s = true -> all_sat r s = true.
Proof.
  intros Hpr. induction s as [|c s IH]; simpl; [reflexivity|].
  intros H. apply andb_true_iff in H as [Hc Hs].
  now rewrite (Hpr _ Hc), IH.
Qed.

(** [rstrip] empties a text made of stripped characters only. *)
Lemma rstrip_by_all (p : ascii -> bool) (s : string) :
  all_sat p s = true -> rstrip_by p s = EmptyString.
Proof.
  induction s as [|c s IH]; simpl; [reflexivity|].
  intros H. apply andb_true_iff in H as [Hc Hs].
  now rewrite (IH Hs), Hc.
Qed.

(** Stripped characters at the end do not count. *)
Lemma rstrip_by_app_all (p : ascii -> bool) (a w : string) :
  all_sat p w = true -> rstrip_by p (a ++ w) = rstrip_by p a.
Proof.
  intros Hw. induction a as [|c a IH]; simpl.
  - now apply rstrip_by_all.
  - now rewrite IH.
Qed.

(** A text without stripped characters is left as it is. *)
Lemma rstrip_by_none (p : ascii -> bool) (s : string) :
  all_sat (fun c => negb (p c)) s = true -> rstrip_by p s = s.
Proof.
  induction s as [|c s IH]; simpl; [reflexivity|].
  intros H. apply andb_true_iff in H as [Hc Hs].
  rewrite (IH Hs). apply negb_true_iff in Hc.
  destruct s; [now rewrite Hc | reflexivity].
Qed.

Lemma lstrip_by_none (p : ascii -> bool) (s : string) :
  all_sat (fun c => negb (p c)) s = true -> lstrip_by p s = s.
Proof.
  destruct s as [|c s]; simpl; [reflexivity|].
  intros H. apply andb_true_iff in H as [Hc _].
  apply negb_true_iff in Hc. now rewrite Hc.
Qed.

(** Between two stripped characters, a text without any is what [strip]
    returns; a missing closing one changes nothing. *)
Lemma strip_by_delimited (p : ascii -> bool) (q : ascii) (u : string) :
  p q = true -> all_sat (fun c => negb (p c)) u = true ->
  strip_by p (String q (u ++ String q EmptyString)) = u
  /\ strip_by p (String q u) = u.
Proof.
  intros Hq Hu. unfold strip_by. simpl. rewrite Hq. split.
  - destruct u as [|c u].
    + simpl. now rewrite Hq.
    + assert (Hc : p c = false).
      { simpl in Hu. apply andb_true_iff in Hu as [Hc _].
        now apply negb_true_iff in Hc. }
      change (String c u ++ String q "") with (String c (u ++ String q "")).
      cbn [lstrip_by]. rewrite Hc.
      change (String c (u ++ String q "")) with (String c u ++ String q "").
      rewrite rstrip_by_app_all by (simpl; now rewrite Hq).
      now apply rstrip_by_none.
  - rewrite lstrip_by_none by exact Hu. now apply rstrip_by_none.
Qed.

Lemma slice_to_all_sat (p : ascii -> bool) (n : nat) (s : string) :
  all_sat p s = true -> all_sat p (slice_to n s) = true.
Proof.
  revert s; induction n as [|n IH]; intros [|c s]; simpl;
    try reflexivity.
  intros H. apply andb_true_iff in H as [Hc Hs]. now rewrite Hc, IH.
Qed.

Lemma lstrip_by_all_sat (p r : ascii -> bool) (s : string) :
  all_sat r s = true -> all_sat r (lstrip_by p s) = true.
Proof.
  induction s as [|c s IH]; simpl; [reflexivity|].
  intros H. destruct (p c); [|exact H].
  apply andb_true_iff in H as [_ Hs]. now apply IH.
Qed.

Lemma rstrip_by_all_sat (p r : ascii -> bool) (s : string) :
  all_sat r s = true -> all_sat r (rstrip_by p s) = true.
Proof.
  induction s as [|c s IH]; simpl; [reflexivity|].
  intros H. apply andb_true_iff in H as [Hc Hs]. specialize (IH Hs).
  destruct (rstrip_by p s).
  - destruct (p c); simpl; [reflexivity | now rewrite Hc].
  - simpl in *. now rewrite Hc, IH.
Qed.

(** The slice of a text followed by another. *)
Lemma slice_to_app_long (n : nat) (s t : string) :
  (n <= String.length s)%nat -> slice_to n (s ++ t) = slice_to n s.
Proof.
  revert s; induction n as [|n IH]; intros [|c s]; simpl; intros H;
    try reflexivity; try lia.
  f_equal. apply IH. lia.
Qed.

Lemma length_app (a b : string) :
  String.length (a ++ b) = (String.length a + String.length b)%nat.
Proof. induction a as [|c a IH]; simpl; [reflexivity | now rewrite IH]. Qed.

Lemma lower_length (s : string) :
  String.length (lower s) = String.length s.
Proof. induction s as [|c s IH]; simpl; [reflexivity | now rewrite IH]. Qed.

(** [repr] copies a plain text between two apostrophes. *)
Lemma repr_body_plain (s : string) :
  plain s = true -> repr_body SQUOTE s = s.
Proof.
  unfold plain. induction s as [|c s IH]; simpl; [reflexivity|].
  intros H. apply andb_true_iff in H as [Hc Hs]. rewrite (IH Hs).
  unfold plain_char in Hc.
  apply andb_true_iff in Hc as [Hc Hb]. apply andb_true_iff in Hc as [Hp Hq].
  apply negb_true_iff in Hb, Hq.
  unfold repr_char. rewrite Hq, Hb. cbn [orb].
  assert (Ht : Ascii.eqb c TAB = false)
    by (destruct (Ascii.eqb_spec c TAB) as [->|]; [discriminate|reflexivity]).
  assert (Hn : Ascii.eqb c LF = false)
    by (destruct (Ascii.eqb_spec c LF) as [->|]; [discriminate|reflexivity]).
  assert (Hr : Ascii.eqb c CR = false)
    by (destruct (Ascii.eqb_spec c CR) as [->|]; [discriminate|reflexivity]).
  now rewrite Ht, Hn, Hr, Hp.
Qed.

Lemma plain_no_apostrophe (s : string) :
  plain s = true -> all_sat (fun c => negb (apostrophe c)) s = true.
Proof.
  apply all_sat_weaken. intros c H. unfold plain_char in H.
  apply andb_true_iff in H as [H _]. apply andb_true_iff in H as [_ H].
  unfold apostrophe. simpl. unfold SQUOTE in H.
  now rewrite orb_false_r.
Qed.

Lemma plain_repr_quote (s : string) :
  plain s = true -> repr_quote s = SQUOTE.
Proof.
  intros H. unfold repr_quote.
  replace (mem SQUOTE s) with false; [reflexivity|].
  symmetry. apply plain_no_apostrophe in H.
  induction s as [|c s IH]; [reflexivity|]. cbn [all_sat mem] in *.
  apply andb_true_iff in H as [Hc Hs]. rewrite (IH Hs).
  unfold apostrophe in Hc. cbn [mem] in Hc. rewrite orb_false_r in Hc.
  apply negb_true_iff in Hc. unfold SQUOTE.
  rewrite Ascii.eqb_sym, Hc. reflexivity.
Qed.

(** What [repr] writes for one character is printable. *)
Lemma repr_char_printable (quote c : ascii) :
  quote = SQUOTE \/ quote = DQUOTE ->
  all_sat isprintable (repr_char quote c) = true.
Proof.
  assert (H : forallb (fun q => forallb (fun x =>
                all_sat isprintable (repr_char q x)) all_chars)
                [SQUOTE; DQUOTE] = true)
    by (vm_compute; reflexivity).
  rewrite forallb_forall in H. intros Hq.
  assert (Hin : In quote [SQUOTE; DQUOTE])
    by (destruct Hq as [-> | ->]; simpl; auto).
  specialize (H quote Hin). rewrite forallb_forall in H.
  apply H, PyFacts.all_chars_complete.
Qed.

Lemma repr_body_printable (quote : ascii) (s : string) :
  quote = SQUOTE \/ quote = DQUOTE ->
  all_sat isprintable (repr_body quote s) = true.
Proof.
  intros Hq. induction s as [|c s IH]; simpl; [reflexivity|].
  now rewrite all_sat_app, IH, repr_char_printable.
Qed.

Lemma repr_str_printable (s : string) :
  all_sat isprintable (repr_str s) = true.
Proof.
  unfold repr_str.
  assert (Hq : repr_quote s = SQUOTE \/ repr_quote s = DQUOTE)
    by (unfold repr_quote; destruct (_ && _); auto).
  assert (Hp : isprintable (repr_quote s) = true)
    by (destruct Hq as [-> | ->]; reflexivity).
  cbn [all_sat]. rewrite Hp, all_sat_app. cbn [all_sat]. rewrite Hp.
  now rewrite repr_body_printable.
Qed.

(** The join of empty texts holds separators only. *)
Lemma join_empties (p : ascii -> bool) (sep : string) (xs : list string) :
  all_sat p sep = true -> Forall (fun x => x = EmptyString) xs ->
  all_sat p (join sep xs) = true.
Proof.
  intros Hsep H. unfold join. induction H as [|x xs -> Hxs IH];
    [reflexivity|].
  destruct xs as [|y ys]; [reflexivity|].
  change (String.concat sep ("" :: y :: ys))
    with (sep ++ String.concat sep (y :: ys)).
  now rewrite all_sat_app, Hsep, IH.
Qed.

(** A last part that [rstrip] keeps makes the whole join kept. *)
Lemma rstrip_join_last_kept (sep : string) (xs : list string) (t : string) :
  t <> EmptyString -> rstrip t = t ->
  rstrip (join sep (xs ++ [t])%list) = join sep (xs ++ [t])%list.
Proof.
  intros Hne Ht. destruct xs as [|x xs]; [exact Ht|].
  rewrite PyFacts.join_snoc by discriminate.
  rewrite <- PyFacts.append_assoc.
  now apply PyFacts.rstrip_by_app_kept.
Qed.

(** An empty last part leaves no trace after [rstrip]. *)
Lemma rstrip_join_empty_last (sep : string) (xs : list string) :
  all_sat isspace sep = true ->
  rstrip (join sep (xs ++ [EmptyString])%list) = rstrip (join sep xs).
Proof.
  intros Hsep. destruct xs as [|x xs]; [reflexivity|].
  rewrite PyFacts.join_snoc by discriminate.
  apply rstrip_by_app_all. now rewrite all_sat_app, Hsep.
Qed.

End TextFacts.

(** ** Writing the report, and the shape of the report *)

Section Coverage.

Context `{ST : Stacktrace} `{TD : Timedelta} `{EX : External}.

(** X1.  [display] leaves the record as it is and appends to the stream
    the result of [display_string] called with the same keyword arguments
    (the two signatures have the same defaults), then one newline; the
    report itself never ends with a newline, so what is written ends with
    exactly one. *)
Theorem display_writes_report_and_one_newline
    (kw : Kwargs.t) (q : Query) (out : string) :
  display kw q out
  = (q, out ++ returned (display_string kw) q ++ String Py.LF EmptyString)
  /\ (forall r, returned (display_string kw) q
                <> r ++ String Py.LF EmptyString).
Proof.
  split.
  - unfold display, stdout_write.
    change (display_flags kw) with (Kwargs.resolve kw).
    pose proof (reads_only_display_string
                  (Kwargs.pass (Kwargs.resolve kw)) q) as Hself.
    pose proof (display_string_returned q
                  (Kwargs.pass (Kwargs.resolve kw))) as Hret.
    rewrite resolve_pass, <- display_string_returned in Hret.
    unfold self_after, returned in *.
    destruct (display_string (Kwargs.pass (Kwargs.resolve kw)) q)
      as [text self']. simpl in *. now subst.
  - intros r H. rewrite display_string_returned in H.
    apply PyFacts.rstrip_by_last in H. discriminate.
Qed.

(** X2.  Whatever the record and the options, the report has no trailing
    whitespace: stripping its end again changes nothing, and its last
    character, when it has one, is not a whitespace character. *)
Theorem display_string_no_trailing_whitespace (kw : Kwargs.t) (q : Query) :
  Py.rstrip (returned (display_string kw) q) = returned (display_string kw) q
  /\ (forall r c, returned (display_string kw) q = r ++ String c EmptyString ->
                  Py.isspace c = false).
Proof.
  rewrite display_string_returned. split.
  - apply PyFacts.rstrip_by_idempotent.
  - intros r c H. exact (PyFacts.rstrip_by_last _ _ _ _ H).
Qed.

(** X3.  When every section that is on is empty or holds whitespace only,
    the report is the empty string: the separators between empty sections
    are stripped with them. *)
Theorem display_string_of_blank_sections (q : Query) (o : Flags.t) :
  Forall (fun a => Py.strip a = "") (returned (display_attributes o) q) ->
  returned (display_string (Kwargs.pass o)) q = "".
Proof.
  intros H. rewrite display_string_returned, resolve_pass,
    display_sections_returned.
  apply TextFacts.rstrip_by_all, TextFacts.join_empties; [reflexivity|].
  now apply Forall_map.
Qed.

(** X4.  When the last section that is on is not blank, the report is
    the stripped sections joined by blank lines, nothing removed: empty
    sections before the last one keep their separators. *)
Theorem display_string_is_join_when_last_section_not_blank
    (q : Query) (o : Flags.t) (before : list string) (last : string) :
  returned (display_sections o) q = (before ++ [last])%list ->
  last <> "" ->
  returned (display_string (Kwargs.pass o)) q
  = Py.join blank_line (before ++ [last])%list.
Proof.
  intros Hs Hne. rewrite display_string_returned, resolve_pass, Hs.
  apply TextFacts.rstrip_join_last_kept; [exact Hne|].
  assert (Hin : In last (returned (display_sections o) q))
    by (rewrite Hs; apply in_or_app; right; left; reflexivity).
  rewrite display_sections_returned in Hin.
  apply in_map_iff in Hin as (a & <- & _). apply PyFacts.rstrip_strip.
Qed.

Lemma sections_snoc_sql (q : Query) (o : Flags.t) :
  Flags.sql o = true ->
  returned (display_sections o) q
  = (returned (display_sections (without_sql o)) q
     ++ [Py.strip (spec_sql_section q o)])%list.
Proof.
  destruct o as [c d i l s sq col fmt]. simpl. intros ->.
  destruct c, d, i, l, s, col, fmt; reflexivity.
Qed.

(** X5.  A blank SQL section leaves no trace: when [sql] is on and the SQL
    section is empty or whitespace, the report is the one the same options
    give with [sql] off. *)
Theorem blank_sql_section_leaves_no_trace (q : Query) (o : Flags.t) :
  Flags.sql o = true -> Py.strip (spec_sql_section q o) = "" ->
  returned (display_string (Kwargs.pass o)) q
  = returned (display_string (Kwargs.pass (without_sql o))) q.
Proof.
  intros Hsql Hblank.
  rewrite !display_string_returned, !resolve_pass.
  rewrite (sections_snoc_sql q o Hsql), Hblank.
  now apply TextFacts.rstrip_join_empty_last.
Qed.

(** X6.  With [colored] off the report depends neither on [formatted] nor
    on [db_type]: the SQL is not pretty-printed and no grammar matters. *)
Theorem plain_report_ignores_formatted_and_db_type
    (q : Query) (o : Flags.t) (formatted : bool) (t : string) :
  Flags.colored o = false ->
  returned (display_string (Kwargs.pass (with_formatted formatted o)))
    (with_db_type t q)
  = returned (display_string (Kwargs.pass o)) q.
Proof.
  destruct o as [c d i l s sq col fmt]. simpl. intros ->.
  rewrite !display_string_returned, !resolve_pass,
    !display_sections_returned.
  do 2 f_equal. f_equal.
  destruct c, d, i, l, s, sq, fmt, formatted; reflexivity.
Qed.

(** X7.  A [db_type] that has not exactly ten characters gets the generic
    SQL grammar: the comparison neither trims the text nor accepts a longer
    or shorter engine name. *)
Theorem db_type_of_other_length_gets_generic_grammar (q : Query) :
  String.length (db_type q) <> 10%nat ->
  returned _enhanced_sql_lexer q = SqlLexer.
Proof.
  intros H. unfold returned, _enhanced_sql_lexer, bind, getattr, ret.
  cbn [fst]. destruct (String.eqb_spec (Py.lower (db_type q)) "postgresql")
    as [E|]; [|reflexivity].
  exfalso. apply H. rewrite <- TextFacts.lower_length, E. reflexivity.
Qed.

(** X8.  The report of a record that [create] built from a stack trace
    with a last frame: the location section alone is the stripped location
    of that frame, the plain code section alone its stripped code. *)
Theorem create_then_display_last_frame
    (db0 : string) (duration0 : TimeDelta) (idx0 : Z) (is_select0 : bool)
    (params0 : string) (raw_params0 : list PyObject)
    (sql0 sql_parameterized0 : string) (frames : StackTrace)
    (last : StacktraceLine) (start_time0 stop_time0 : Z)
    (db_type0 : string) :
  exists q : Query,
    create db0 duration0 idx0 is_select0 params0 raw_params0 sql0
      sql_parameterized0 (frames ++ [last])%list start_time0 stop_time0
      db_type0 = Ok q
    /\ returned (display_string (Kwargs.pass only_location)) q
       = Py.strip (line_location last)
    /\ returned (display_string (Kwargs.pass only_code)) q
       = Py.strip (line_code last).
Proof.
  unfold create.
  replace (truthy (frames ++ [last])%list) with true
    by (destruct frames; reflexivity).
  rewrite getitem_last. eexists. split; [reflexivity|].
  split; rewrite display_string_returned; apply PyFacts.rstrip_strip.
Qed.

End Coverage.

(** ** The excerpt of the diagnostic representation *)

Section Excerpt.

Context `{ST : Stacktrace} `{TD : Timedelta} `{EX : External}.

(** X9.  For an SQL text of printable characters without apostrophe or
    backslash, the excerpt is the first 29 characters of the text, the
    whole text when it has fewer: the opening apostrophe of [repr] takes
    one of the 30 places of the slice. *)
Theorem repr_excerpt_of_plain_sql (q : Query) :
  Text.plain (sql q) = true ->
  returned truncated_sql q = Py.slice_to 29 (sql q).
Proof.
  intros Hp. rewrite truncated_sql_returned. unfold Py.repr_str.
  rewrite (TextFacts.plain_repr_quote _ Hp),
    (TextFacts.repr_body_plain _ Hp).
  cbv zeta.
  change (Py.slice_to 30 (String Py.SQUOTE (sql q ++ String Py.SQUOTE "")))
    with (String Py.SQUOTE
            (Py.slice_to 29 (sql q ++ String Py.SQUOTE ""))).
  change (Py.strip_chars "'") with (Py.strip_by Text.apostrophe).
  pose proof (TextFacts.plain_no_apostrophe _ Hp) as Hno.
  destruct (Nat.le_gt_cases 29 (String.length (sql q))) as [Hlong|Hshort].
  - rewrite TextFacts.slice_to_app_long by exact Hlong.
    apply TextFacts.strip_by_delimited; [reflexivity|].
    now apply TextFacts.slice_to_all_sat.
  - rewrite (PyFacts.slice_to_short 29 (sql q)) by lia.
    rewrite PyFacts.slice_to_short
      by (rewrite TextFacts.length_app; simpl; lia).
    now apply TextFacts.strip_by_delimited.
Qed.

Lemma all_sat_mem (p : ascii -> bool) (s : string) (c : ascii) :
  Text.all_sat p s = true -> Py.mem c s = true -> p c = true.
Proof.
  induction s as [|d s IH]; simpl; [discriminate|].
  intros H Hm. apply andb_true_iff in H as [Hd Hs].
  apply orb_true_iff in Hm as [Hm|Hm]; [|now apply IH].
  apply Ascii.eqb_eq in Hm. now subst.
Qed.

(** X10.  Whatever the SQL text, the excerpt holds printable characters
    only: [repr] has escaped every newline, tab and control character, so
    the excerpt stays on one line. *)
Theorem repr_excerpt_is_printable (q : Query) :
  Text.all_sat Py.isprintable (returned truncated_sql q) = true
  /\ Py.mem Py.LF (returned truncated_sql q) = false
  /\ Py.mem Py.CR (returned truncated_sql q) = false
  /\ Py.mem Py.TAB (returned truncated_sql q) = false.
Proof.
  assert (H : Text.all_sat Py.isprintable (returned truncated_sql q) = true).
  { rewrite truncated_sql_returned. unfold Py.strip_chars, Py.strip_by.
    apply TextFacts.rstrip_by_all_sat, TextFacts.lstrip_by_all_sat,
      TextFacts.slice_to_all_sat, TextFacts.repr_str_printable. }
  split; [exact H|].
  repeat split;
    match goal with
    | |- Py.mem ?c ?s = false =>
        destruct (Py.mem c s) eqn:E; [|reflexivity];
        pose proof (all_sat_mem _ _ _ H E); discriminate
    end.
Qed.

(** X11.  For an SQL text with an apostrophe and no double quote, [repr]
    delimits with double quotes, and the excerpt keeps the opening one: it
    is that double quote, then the next 29 characters of the escaped text
    and its closing double quote, apostrophes stripped from the end
    only. *)
Theorem repr_excerpt_keeps_opening_double_quote (q : Query) :
  Py.mem Py.SQUOTE (sql q) = true -> Py.mem Py.DQUOTE (sql q) = false ->
  returned truncated_sql q
  = String Py.DQUOTE
      (Py.rstrip_by Text.apostrophe
         (Py.slice_to 29
            (Py.repr_body Py.DQUOTE (sql q) ++ String Py.DQUOTE ""))).
Proof.
  intros Hs Hd. rewrite truncated_sql_returned.
  unfold Py.repr_str, Py.repr_quote. rewrite Hs, Hd.
  cbn [negb andb]. cbv zeta.
  set (body := Py.repr_body Py.DQUOTE (sql q) ++ String Py.DQUOTE "").
  change (Py.slice_to 30 (String Py.DQUOTE body))
    with (String Py.DQUOTE (Py.slice_to 29 body)).
  change (Py.strip_chars "'") with (Py.strip_by Text.apostrophe).
  unfold Py.strip_by.
  change (Py.lstrip_by Text.apostrophe
            (String Py.DQUOTE (Py.slice_to 29 body)))
    with (String Py.DQUOTE (Py.slice_to 29 body)).
  cbn [Py.rstrip_by].
  destruct (Py.rstrip_by Text.apostrophe (Py.slice_to 29 body));
    reflexivity.
Qed.

End Excerpt.

(** ** The further properties on sample records *)

Module Runs.
Import Sample.

Lemma display_string_of_blank_sections_witness :
  Forall (fun a => Py.strip a = "")
    (returned (display_attributes only_sql_plain) (query "   " "mysql"))
  /\ returned (display_string (Kwargs.pass only_sql_plain))
       (query "   " "mysql") = "".
Proof.
  assert (H : Forall (fun a => Py.strip a = "")
                (returned (display_attributes only_sql_plain)
                   (query "   " "mysql")))
    by (repeat constructor).
  split; [exact H|].
  exact (display_string_of_blank_sections (query "   " "mysql")
           only_sql_plain H).
Defined.

Lemma display_string_is_join_witness :
  returned (display_string (Kwargs.pass location_and_sql))
    (query " SELECT 1" "mysql")
  = "views.py:12 in index" ++ blank_line ++ "SELECT 1".
Proof.
  apply (display_string_is_join_when_last_section_not_blank
           (query " SELECT 1" "mysql") location_and_sql
           ["views.py:12 in index"] "SELECT 1" eq_refl).
  discriminate.
Defined.

Lemma blank_sql_section_witness :
  Flags.sql location_and_sql = true
  /\ Py.strip (spec_sql_section (query "  " "mysql") location_and_sql) = ""
  /\ returned (display_string (Kwargs.pass location_and_sql))
       (query "  " "mysql")
     = returned (display_string (Kwargs.pass (without_sql location_and_sql)))
         (query "  " "mysql").
Proof.
  split; [reflexivity|]. split; [reflexivity|].
  exact (blank_sql_section_leaves_no_trace (query "  " "mysql")
           location_and_sql eq_refl eq_refl).
Defined.

Lemma plain_report_witness :
  Flags.colored all_plain = false
  /\ returned (display_string (Kwargs.pass (with_formatted true all_plain)))
       (with_db_type "postgresql" (query "SELECT 1" "mysql"))
     = returned (display_string (Kwargs.pass all_plain))
         (query "SELECT 1" "mysql").
Proof.
  split; [reflexivity|].
  exact (plain_report_ignores_formatted_and_db_type
           (query "SELECT 1" "mysql") all_plain true "postgresql" eq_refl).
Defined.

Lemma db_type_with_space_witness :
  String.length (db_type (query "SELECT 1" "postgresql ")) <> 10%nat
  /\ returned _enhanced_sql_lexer (query "SELECT 1" "postgresql ")
     = SqlLexer.
Proof.
  assert (H : String.length (db_type (query "SELECT 1" "postgresql "))
              <> 10%nat) by (simpl; lia).
  split; [exact H|].
  exact (db_type_of_other_length_gets_generic_grammar
           (query "SELECT 1" "postgresql ") H).
Defined.

Lemma repr_excerpt_of_plain_sql_witness :
  Text.plain (sql (query "SELECT * FROM a_very_long_table_name_x" "mysql"))
  = true
  /\ returned truncated_sql
       (query "SELECT * FROM a_very_long_table_name_x" "mysql")
     = "SELECT * FROM a_very_long_tab".
Proof.
  split; [reflexivity|].
  exact (repr_excerpt_of_plain_sql
           (query "SELECT * FROM a_very_long_table_name_x" "mysql")
           eq_refl).
Defined.

Lemma repr_excerpt_keeps_opening_double_quote_witness :
  Py.mem Py.SQUOTE (sql (query "SELECT 'a'" "mysql")) = true
  /\ Py.mem Py.DQUOTE (sql (query "SELECT 'a'" "mysql")) = false
  /\ returned truncated_sql (query "SELECT 'a'" "mysql")
     = String Py.DQUOTE
         (Py.rstrip_by Text.apostrophe
            (Py.slice_to 29
               (Py.repr_body Py.DQUOTE "SELECT 'a'"
                ++ String Py.DQUOTE ""))).
Proof.
  split; [reflexivity|]. split; [reflexivity|].
  exact (repr_excerpt_keeps_opening_double_quote
           (query "SELECT 'a'" "mysql") eq_refl eq_refl).
Defined.

End Runs.
